(** * A FastAPI demo service: request handlers and logging middleware

    Shallow embedding of [app/main.py]: five GET routes returning JSON
    mappings, wrapped in an HTTP middleware that times every request with
    the wall clock and writes one log record per request.

    Python values are modelled as they are at run time: [int] as [Z],
    [str] as [string], [float] as IEEE 754 binary64 ([spec_float] at
    precision 53), [dict] literals as association lists in insertion
    order, [os.environ] as a finite map from names to values.  The effects
    of the program (reading the environment, reading the clock, appending
    to the log, raising) are threaded through a state-and-exception
    monad; requests are served one at a time. *)

From Stdlib Require Import ZArith Lia Ascii String Decimal DecimalString DecimalPos.
From Stdlib Require Import Floats.SpecFloat.
From stdpp Require Import base option list strings gmap.

Set Warnings "-register-all".
Local Open Scope Z_scope.

(** ** Python floats *)

Module PyFloat.

Definition prec : Z := 53.
Definition emax : Z := 1024.

(** [x - y] on floats. *)
Definition sub (x y : spec_float) : spec_float := SFsub prec emax x y.

(** [x <= y] on floats. *)
Definition le (x y : spec_float) : bool := SFleb x y.

Definition zero : spec_float := S754_zero false.

(** A float as the clock returns it: a number (no infinity, no NaN)
    in canonical binary64 form. *)
Definition is_number (x : spec_float) : bool :=
  match x with
  | S754_zero _ => true
  | S754_finite _ m e => bounded prec emax m e
  | _ => false
  end.

Definition is_finite (x : spec_float) : bool :=
  match x with
  | S754_zero _ | S754_finite _ _ _ => true
  | _ => false
  end.

(** The integer nearest to [n / d], ties going to the even one. *)
Definition round_half_even (n d : Z) : Z :=
  let q := n / d in
  match 2 * (n mod d) ?= d with
  | Lt => q
  | Gt => q + 1
  | Eq => if Z.even q then q else q + 1
  end.

(** [m * 2^e] in thousandths, correctly rounded. *)
Definition thousandths (m : positive) (e : Z) : Z :=
  match e with
  | Zneg p => round_half_even (1000 * Zpos m) (2 ^ Zpos p)
  | _ => 1000 * Zpos m * 2 ^ e
  end.

End PyFloat.

(** ** Python string conversions *)

Module PyStr.

(** [str(n)] for an [int]. *)
Definition str (n : Z) : string := NilZero.string_of_int (Z.to_int n).

(** The character of a decimal digit [0 <= d <= 9]. *)
Definition digit (d : Z) : ascii := ascii_of_nat (48 + Z.to_nat d).

Definition sign (s : bool) : string := if s then "-" else "".

(** A non-negative count of thousandths written with three decimals. *)
Definition fixed3 (n : Z) : string :=
  str (n / 1000) +:+ "." +:+
  String (digit (n / 100 mod 10))
    (String (digit (n / 10 mod 10))
       (String (digit (n mod 10)) EmptyString)).

(** [f"{x:.3f}"] for a [float]. *)
Definition format_3f (x : spec_float) : string :=
  match x with
  | S754_nan => "nan"
  | S754_infinity s => sign s +:+ "inf"
  | S754_zero s => sign s +:+ fixed3 0
  | S754_finite s m e => sign s +:+ fixed3 (PyFloat.thousandths m e)
  end.

End PyStr.

(** ** JSON-serialisable values *)

Inductive json : Type :=
  | JInt (n : Z)
  | JStr (s : string)
  | JList (l : list json)
  | JDict (kv : list (string * json)).

(** [d.get(k)] on a mapping, first binding of the key. *)
Fixpoint assoc (k : string) (kv : list (string * json)) : option json :=
  match kv with
  | [] => None
  | (k', v) :: kv' => if String.eqb k k' then Some v else assoc k kv'
  end.

Definition field (k : string) (j : json) : option json :=
  match j with
  | JDict kv => assoc k kv
  | _ => None
  end.

(** ** Requests and responses *)

(** [url request] is [request.url], the URL as the framework has parsed
    it; its [path] is what the middleware logs and what the router
    matches. *)
Record URL := { path : string; query : string }.

Record Request := {
  method : string;
  url : URL;
  request_headers : list (string * string);
  request_body : string
}.

Record Response := {
  status_code : Z;
  headers : list (string * string);
  body : json
}.

(** ** The process state *)

Inductive level := DEBUG | INFO | WARNING | ERROR | CRITICAL.

Definition levelno (l : level) : Z :=
  match l with
  | DEBUG => 10 | INFO => 20 | WARNING => 30 | ERROR => 40 | CRITICAL => 50
  end.

(** A log record as the program supplies it: its level and its message.
    The handler set up by [logging.basicConfig] puts the time of the
    record and the logger's name in front of them. *)
Record LogRecord := { levelname : level; message : string }.

(** [environ] is [os.environ]; [clock] gives the successive values that
    the program's own calls of [time.time()] return and [reads] counts
    the calls made so far; [records] is the log written so far, oldest
    first.  The readings that the logging library takes on its own for
    the time stamp of a record are not among them. *)
Record World := {
  environ : gmap string string;
  clock : nat → spec_float;
  reads : nat;
  records : list LogRecord
}.

(** ** Effects: state and exceptions *)

Definition exn := string.

Inductive result (A : Type) : Type :=
  | Ok (a : A)
  | Raised (e : exn).
Arguments Ok {A} a.
Arguments Raised {A} e.

Definition M (A : Type) : Type := World → result A * World.

#[export] Instance M_ret : MRet M := λ A a w, (Ok a, w).

#[export] Instance M_bind : MBind M := λ A B f m w,
  match m w with
  | (Ok a, w') => f a w'
  | (Raised e, w') => (Raised e, w')
  end.

(** [time.time()] *)
Definition time_time : M spec_float := λ w,
  (Ok (clock w (reads w)),
   {| environ := environ w; clock := clock w;
      reads := S (reads w); records := records w |}).

(** [os.getenv(key, default)] *)
Definition os_getenv (key default : string) : M string := λ w,
  (Ok (match environ w !! key with Some v => v | None => default end), w).

(** [logging.basicConfig(level=logging.INFO, ...)] *)
Definition basicConfig_level : level := INFO.

(** [logger.info(msg)] *)
Definition logger_info (msg : string) : M unit := λ w,
  if levelno basicConfig_level <=? levelno INFO then
    (Ok tt,
     {| environ := environ w; clock := clock w; reads := reads w;
        records := records w ++ [{| levelname := INFO; message := msg |}] |})
  else (Ok tt, w).

(** ** The application ([app/main.py]) *)

(** [logging_middleware(request, call_next)] *)
Definition logging_middleware (request : Request)
    (call_next : Request → M Response) : M Response :=
  start_time ← time_time;
  let method_ := method request in
  let path_ := path (url request) in
  response ← call_next request;
  now ← time_time;
  let duration := PyFloat.sub now start_time in
  let status_code_ := status_code response in
  logger_info (method_ +:+ " " +:+ path_ +:+ " - " +:+ PyStr.str status_code_
               +:+ " - " +:+ PyStr.format_3f duration +:+ "s");;
  mret response.

(** [GET /] *)
Definition root : M json :=
  logger_info "Root endpoint accessed";;
  environment ← os_getenv "ENVIRONMENT" "development";
  mret (JDict [("message", JStr "Welcome to FastAPI GitOps Demo");
               ("version", JStr "1.0.0");
               ("environment", JStr environment)]).

(** [GET /health] *)
Definition health : M json :=
  mret (JDict [("status", JStr "healthy"); ("service", JStr "fastapi-demo")]).

(** [GET /ready] *)
Definition ready : M json :=
  mret (JDict [("status", JStr "ready"); ("service", JStr "fastapi-demo")]).

(** [GET /api/items] *)
Definition get_items : M json :=
  logger_info "Items endpoint accessed";;
  mret (JDict [("items", JList [
    JDict [("id", JInt 1); ("name", JStr "Item 1"); ("description", JStr "First item")];
    JDict [("id", JInt 2); ("name", JStr "Item 2"); ("description", JStr "Second item")];
    JDict [("id", JInt 3); ("name", JStr "Item 3"); ("description", JStr "Third item")]])]).

(** [GET /api/status] *)
Definition status : M json :=
  environment ← os_getenv "ENVIRONMENT" "development";
  mret (JDict [("app", JStr "fastapi-demo");
               ("version", JStr "1.0.0");
               ("status", JStr "running");
               ("environment", JStr environment)]).

(** The routes registered by the [@app.get] decorators, in order. *)
Definition routes : list (string * M json) :=
  [("/", root); ("/health", health); ("/ready", ready);
   ("/api/items", get_items); ("/api/status", status)].

Fixpoint find_route (p : string) (rs : list (string * M json)) : option (M json) :=
  match rs with
  | [] => None
  | (p', h) :: rs' => if String.eqb p p' then Some h else find_route p rs'
  end.

(** The response the framework builds from a returned mapping. *)
Definition JSONResponse (content : json) (code : Z) : Response :=
  {| status_code := code;
     headers := [("content-type", "application/json")];
     body := content |}.

(** Modelled from the spec: the framework's router, which is not part of
    the repository.  A GET request whose path is one of the registered
    routes runs that handler and answers 200 with the mapping it returns;
    another method on a registered path is answered 405 and an unknown
    path 404, both with the framework's default body. *)
Definition router (request : Request) : M Response :=
  match find_route (path (url request)) routes with
  | Some handler =>
      if String.eqb (method request) "GET" then
        content ← handler;
        mret (JSONResponse content 200)
      else mret (JSONResponse (JDict [("detail", JStr "Method Not Allowed")]) 405)
  | None => mret (JSONResponse (JDict [("detail", JStr "Not Found")]) 404)
  end.

(** The application: every request goes through the middleware, which
    calls the router. *)
Definition app (request : Request) : M Response :=
  logging_middleware request router.

(** A change of the process environment between two requests. *)
Definition setenv (key value : string) (w : World) : World :=
  {| environ := <[key := value]> (environ w); clock := clock w;
     reads := reads w; records := records w |}.

Definition unsetenv (key : string) (w : World) : World :=
  {| environ := delete key (environ w); clock := clock w;
     reads := reads w; records := records w |}.

(** ** Running the model on concrete inputs *)

Definition GET (p : string) : Request :=
  {| method := "GET"; url := {| path := p; query := "" |};
     request_headers := []; request_body := "" |}.

(** 1700000000.0, 1700000000.25 and 1700000000.3125 as binary64. *)
Definition t_0 : spec_float := S754_finite false 7130316800000000 (-22).
Definition t_250ms : spec_float := S754_finite false 7130316801048576 (-22).
Definition t_312ms : spec_float := S754_finite false 7130316801310720 (-22).

Definition world0 : World :=
  {| environ := ∅;
     clock := λ n, match n with O => t_0 | 1%nat => t_250ms | _ => t_312ms end;
     reads := 0; records := [] |}.

(** A wall clock that is set back by a quarter of a second between its
    first and its second reading. *)
Definition world_set_back : World :=
  {| environ := ∅;
     clock := λ n, match n with O => t_250ms | _ => t_0 end;
     reads := 0; records := [] |}.

(** A GET request to one of the registered routes. *)
Definition registered (request : Request) : Prop :=
  method request = "GET" ∧ In (path (url request)) (map fst routes).

(** The two routes that report the environment setting. *)
Definition reports_environment (request : Request) : Prop :=
  method request = "GET"
  ∧ (path (url request) = "/" ∨ path (url request) = "/api/status").

(** A clock that gives the same reading every time. *)
Definition world_frozen : World :=
  {| environ := ∅; clock := λ _, t_0; reads := 0; records := [] |}.

(** A stack below the middleware that fails: [call_next] raises. *)
Definition failing_downstream (e : exn) : Request → M Response :=
  λ _ w, (Raised e, w).

(** ** What the timing line must say *)

(** [n] thousandths is the value [m * 2^e] rounded to the nearest
    thousandth, a tie going to the even one. *)
Definition nearest_thousandth (m : positive) (e n : Z) : Prop :=
  0 <= n
  ∧ (0 <= e → n = 1000 * Zpos m * 2 ^ e)
  ∧ (e < 0 →
     2 * Z.abs (1000 * Zpos m - n * 2 ^ (- e)) <= 2 ^ (- e)
     ∧ (2 * Z.abs (1000 * Zpos m - n * 2 ^ (- e)) = 2 ^ (- e) →
        Z.even n = true)).

(** [text] is the decimal writing of the integer [n], as the Standard
    Library's parser of decimal numerals reads it: digits only, a minus
    sign for a negative number, no leading zero. *)
Definition writes_int (n : Z) (text : string) : Prop :=
  NilZero.int_of_string text = Some (Z.to_int n).

(** [text] is the float [x] in fixed-point notation with three decimals:
    a minus sign when the sign bit is set, the decimal writing of the
    whole seconds, a point, and three digits for the thousandths left,
    the value being rounded to the nearest thousandth.  Python writes
    [nan] and [inf] for what is not a number. *)
Definition writes_3f (x : spec_float) (text : string) : Prop :=
  match x with
  | S754_nan => text = "nan"
  | S754_infinity s => text = (if s then "-inf" else "inf")
  | S754_zero s => text = (if s then "-0.000" else "0.000")
  | S754_finite s m e =>
      ∃ n whole frac thousandths_left,
        text = (if s then "-" else "") +:+ whole +:+ "." +:+ frac
        ∧ nearest_thousandth m e n
        ∧ writes_int (n / 1000) whole
        ∧ String.length frac = 3%nat
        ∧ NilEmpty.uint_of_string frac = Some thousandths_left
        ∧ Z.of_uint thousandths_left = n mod 1000
  end.

(** ** Examples *)

Example root_world0 :
  app (GET "/") world0 =
  (Ok (JSONResponse (JDict [("message", JStr "Welcome to FastAPI GitOps Demo");
                            ("version", JStr "1.0.0");
                            ("environment", JStr "development")]) 200),
   {| environ := ∅; clock := clock world0; reads := 2;
      records := [{| levelname := INFO; message := "Root endpoint accessed" |};
                  {| levelname := INFO; message := "GET / - 200 - 0.250s" |}] |}).
Proof. vm_compute. reflexivity. Qed.

Example unknown_path_world0 :
  app (GET "/nonexistent") world0 =
  (Ok (JSONResponse (JDict [("detail", JStr "Not Found")]) 404),
   {| environ := ∅; clock := clock world0; reads := 2;
      records := [{| levelname := INFO;
                     message := "GET /nonexistent - 404 - 0.250s" |}] |}).
Proof. vm_compute. reflexivity. Qed.

(** Ties go to the even thousandth: 0.0625, 0.1875 and 0.9375. *)
Example format_ties :
  PyStr.format_3f (S754_finite false 4503599627370496 (-56)) = "0.062"
  ∧ PyStr.format_3f (S754_finite false 6755399441055744 (-55)) = "0.188"
  ∧ PyStr.format_3f (S754_finite false 8444249301319680 (-53)) = "0.938".
Proof. vm_compute. repeat split. Qed.

Example format_small_negative :
  PyStr.format_3f (S754_finite true 4503599627370496 (-80)) = "-0.000".
Proof. vm_compute. reflexivity. Qed.

Example sub_quarter_second :
  PyFloat.sub t_250ms t_0 = S754_finite false 4503599627370496 (-54).
Proof. vm_compute. reflexivity. Qed.

(** ** Facts about binary64 subtraction *)

Section FloatFacts.
Import PyFloat.

Lemma digits2_pos_size (m : positive) : digits2_pos m = Pos.size m.
Proof. induction m as [m IH|m IH|]; simpl; congruence. Qed.

Lemma digits2_bounds (m : positive) :
  2 ^ (Zpos (digits2_pos m) - 1) <= Zpos m < 2 ^ Zpos (digits2_pos m).
Proof.
  rewrite digits2_pos_size.
  pose proof (Pos.size_gt m) as Hgt.
  pose proof (Pos.size_le m) as Hle.
  apply Pos2Z.pos_lt_pos in Hgt. apply Pos2Z.pos_le_pos in Hle.
  rewrite Pos2Z.inj_pow in Hgt, Hle.
  replace (Zpos (Pos.size m)) with (Z.succ (Zpos (Pos.size m) - 1)) in Hle at 1 by lia.
  rewrite Z.pow_succ_r in Hle by lia.
  lia.
Qed.

Lemma iter_xO (m d : positive) : Zpos (Pos.iter xO m d) = Zpos m * 2 ^ Zpos d.
Proof.
  induction d as [|d IH] using Pos.peano_ind.
  - simpl. lia.
  - rewrite Pos.iter_succ, Pos2Z.inj_xO, IH, Pos2Z.inj_succ, Z.pow_succ_r by lia. lia.
Qed.

(** Aligning a mantissa to a smaller exponent multiplies it by the
    matching power of two, so the value is kept. *)
Lemma shl_align_fst (m : positive) (e ez : Z) :
  ez <= e → Zpos (fst (shl_align m e ez)) = Zpos m * 2 ^ (e - ez).
Proof.
  intros Hle. unfold shl_align.
  destruct (ez - e) as [|d|d] eqn:Hd; simpl.
  - replace (e - ez) with 0 by lia. lia.
  - lia.
  - rewrite iter_xO. f_equal. f_equal. lia.
Qed.

Lemma shr_1_nonneg mrs : 0 <= shr_m mrs → 0 <= shr_m (shr_1 mrs).
Proof.
  destruct mrs as [m r s]; simpl.
  destruct m as [|[p|p|]|[p|p|]]; simpl; lia.
Qed.

Lemma iter_pos_shr_1_nonneg (p : positive) mrs :
  0 <= shr_m mrs → 0 <= shr_m (SpecFloat.iter_pos shr_1 p mrs).
Proof.
  revert mrs. induction p as [p IH|p IH|]; simpl; intros mrs H.
  - apply IH, IH, shr_1_nonneg, H.
  - apply IH, IH, H.
  - apply shr_1_nonneg, H.
Qed.

Lemma shr_fexp_nonneg m e l :
  0 <= m → 0 <= shr_m (fst (shr_fexp prec emax m e l)).
Proof.
  intros H. unfold shr_fexp, shr.
  assert (0 <= shr_m (shr_record_of_loc m l)) as H0
    by (destruct l as [|[]]; exact H).
  destruct (fexp prec emax (Zdigits2 m + e) - e); simpl;
    [exact H0 | apply iter_pos_shr_1_nonneg, H0 | exact H0].
Qed.

Lemma round_nearest_even_nonneg m l : 0 <= m → 0 <= round_nearest_even m l.
Proof.
  intros H. destruct l as [|[]]; simpl; try lia.
  destruct (Z.even m); lia.
Qed.

(** Rounding a non-negative integer mantissa never yields a negative
    float, nor a NaN. *)
Lemma binary_round_aux_nonneg m e l :
  0 <= m → le zero (binary_round_aux prec emax false m e l) = true.
Proof.
  intros H. unfold binary_round_aux.
  pose proof (shr_fexp_nonneg m e l H) as H1.
  destruct (shr_fexp prec emax m e l) as [mrs' e'] eqn:E1. simpl in H1.
  pose proof (shr_fexp_nonneg _ e' loc_Exact
                (round_nearest_even_nonneg _ (loc_of_shr_record mrs') H1)) as H2.
  destruct (shr_fexp prec emax (round_nearest_even _ _) e' loc_Exact) as [mrs'' e''].
  simpl in H2.
  destruct (shr_m mrs'') as [|p|p]; [reflexivity| |lia].
  destruct (e'' <=? emax - prec); reflexivity.
Qed.

Lemma binary_normalize_nonneg m e :
  0 <= m → le zero (binary_normalize prec emax m e false) = true.
Proof.
  intros H. destruct m as [|p|p]; [reflexivity| |lia].
  simpl. unfold binary_round.
  destruct (shl_align p e _) as [mz ez].
  apply binary_round_aux_nonneg. lia.
Qed.

(** What [bounded] says of a canonical mantissa. *)
Lemma bounded_digits m e :
  bounded prec emax m e = true →
  Zpos (digits2_pos m) <= prec ∧ emin prec emax <= e ∧
  (emin prec emax < e → Zpos (digits2_pos m) = prec).
Proof.
  unfold bounded, canonical_mantissa, fexp.
  intros H. apply andb_true_iff in H as [H _]. apply Z.eqb_eq in H. lia.
Qed.

(** Of two canonical positive numbers, the one with the larger exponent
    is the larger. *)
Lemma aligned_lt mx ex my ey :
  bounded prec emax mx ex = true → bounded prec emax my ey = true →
  ey < ex → Zpos my < Zpos mx * 2 ^ (ex - ey).
Proof.
  intros Hx Hy Hlt.
  apply bounded_digits in Hx as (_ & _ & Hx).
  apply bounded_digits in Hy as (Hy & Hey & _).
  specialize (Hx ltac:(lia)).
  pose proof (digits2_bounds mx) as [Hmx _].
  pose proof (digits2_bounds my) as [_ Hmy].
  rewrite Hx in Hmx.
  assert (2 ^ Zpos (digits2_pos my) <= 2 ^ prec) by (apply Z.pow_le_mono_r; lia).
  assert (2 ^ 1 <= 2 ^ (ex - ey)) by (apply Z.pow_le_mono_r; lia).
  assert (2 ^ prec = 2 ^ (prec - 1) * 2 ^ 1) by reflexivity.
  nia.
Qed.

Lemma aligned_le mx ex my ey :
  bounded prec emax mx ex = true → bounded prec emax my ey = true →
  match ey ?= ex with
  | Lt => Lt | Gt => Gt | Eq => Pos.compare_cont Eq my mx
  end ≠ Gt →
  Zpos (fst (shl_align my ey (Z.min ex ey)))
  <= Zpos (fst (shl_align mx ex (Z.min ex ey))).
Proof.
  intros Hx Hy Hc.
  rewrite !shl_align_fst by lia.
  destruct (Z.compare_spec ey ex) as [Heq|Hlt|Hgt]; [| |congruence].
  - subst. replace (ex - Z.min ex ex) with 0 by lia. simpl (2 ^ 0).
    change (Pos.compare_cont Eq my mx) with (Pos.compare my mx) in Hc.
    destruct (Pos.compare_spec my mx); try congruence; lia.
  - replace (Z.min ex ey) with ey by lia. replace (ey - ey) with 0 by lia.
    pose proof (aligned_lt mx ex my ey Hx Hy Hlt). simpl (2 ^ 0). lia.
Qed.

(** Subtracting a number from one that is not smaller gives a float
    that is not below zero (it may round, even overflow, but keeps its
    sign). *)
Lemma sub_nonneg (x y : spec_float) :
  is_number x = true → is_number y = true → le y x = true →
  le zero (sub x y) = true.
Proof.
  destruct x as [sx| | |sx mx ex], y as [sy| | |sy my ey];
    cbn [is_number]; try discriminate.
  - intros _ _ _. destruct sx, sy; reflexivity.
  - intros _ _. destruct sy; [reflexivity | discriminate].
  - intros _ _. destruct sx; [discriminate | reflexivity].
  - intros Hx Hy Hle. unfold sub, SFsub. apply binary_normalize_nonneg.
    unfold le, SFleb, SFcompare in Hle.
    destruct sx, sy; cbn [cond_Zopp].
    + (* both negative *)
      enough (Zpos (fst (shl_align mx ex (Z.min ex ey)))
              <= Zpos (fst (shl_align my ey (Z.min ex ey)))) by lia.
      rewrite Z.min_comm. apply aligned_le; [assumption..|].
      rewrite Pos.compare_cont_antisym in Hle. simpl CompOpp in Hle.
      rewrite Z.compare_antisym.
      destruct (ey ?= ex); simpl in *; try discriminate; try congruence.
      destruct (Pos.compare_cont Eq mx my); congruence.
    + (* x negative, y positive: excluded by y <= x *)
      discriminate Hle.
    + (* x positive, y negative *)
      pose proof (Pos2Z.pos_is_pos (fst (shl_align mx ex (Z.min ex ey)))).
      pose proof (Pos2Z.pos_is_pos (fst (shl_align my ey (Z.min ex ey)))).
      lia.
    + (* both positive *)
      enough (Zpos (fst (shl_align my ey (Z.min ex ey)))
              <= Zpos (fst (shl_align mx ex (Z.min ex ey)))) by lia.
      apply aligned_le; [assumption..|].
      destruct (ey ?= ex); try discriminate; try congruence.
      destruct (Pos.compare_cont Eq my mx); congruence.
Qed.

End FloatFacts.

(** ** Facts about the formatting of floats *)

Section FormatFacts.
Import PyStr.

Lemma round_half_even_nonneg n d :
  0 <= n → 0 < d → 0 <= PyFloat.round_half_even n d.
Proof.
  intros Hn Hd. unfold PyFloat.round_half_even.
  assert (0 <= n / d) by (apply Z.div_pos; lia).
  destruct (2 * (n mod d) ?= d); [destruct (Z.even (n / d))|..]; lia.
Qed.

Lemma thousandths_nonneg m e : 0 <= PyFloat.thousandths m e.
Proof.
  unfold PyFloat.thousandths. destruct e as [|p|p].
  - lia.
  - pose proof (Z.pow_pos_nonneg 2 (Zpos p)). lia.
  - apply round_half_even_nonneg; [lia | apply Z.pow_pos_nonneg; lia].
Qed.

End FormatFacts.

(** ** How the middleware and the router run *)

Ltac run_handlers :=
  unfold router, root, health, ready, get_items, status,
    mbind, M_bind, mret, M_ret, os_getenv, logger_info, default;
  simpl.

(** The middleware reads the clock, runs the rest of the stack, and on a
    response reads the clock again and appends its record; an exception
    of the rest of the stack goes through. *)
Lemma middleware_run request call_next w :
  logging_middleware request call_next w =
  match call_next request (snd (time_time w)) with
  | (Ok response, w1) =>
      (Ok response,
       {| environ := environ w1; clock := clock w1; reads := S (reads w1);
          records := records w1 ++
            [{| levelname := INFO;
                message := method request +:+ " " +:+ path (url request)
                  +:+ " - " +:+ PyStr.str (status_code response) +:+ " - "
                  +:+ PyStr.format_3f
                        (PyFloat.sub (clock w1 (reads w1)) (clock w (reads w)))
                  +:+ "s" |}] |})
  | (Raised e, w1) => (Raised e, w1)
  end.
Proof.
  unfold logging_middleware, mbind, M_bind, mret, M_ret. simpl.
  destruct (call_next request _) as [[response|e] w1]; reflexivity.
Qed.

Lemma router_root request w :
  method request = "GET" → path (url request) = "/" →
  router request w =
  (Ok (JSONResponse
         (JDict [("message", JStr "Welcome to FastAPI GitOps Demo");
                 ("version", JStr "1.0.0");
                 ("environment",
                  JStr (default "development" (environ w !! "ENVIRONMENT")))])
         200),
   {| environ := environ w; clock := clock w; reads := reads w;
      records := records w ++
        [{| levelname := INFO; message := "Root endpoint accessed" |}] |}).
Proof.
  destruct request as [m [p q] h b]; simpl; intros -> ->.
  run_handlers. destruct (environ w !! "ENVIRONMENT"); reflexivity.
Qed.

Lemma router_health request w :
  method request = "GET" → path (url request) = "/health" →
  router request w =
  (Ok (JSONResponse
         (JDict [("status", JStr "healthy"); ("service", JStr "fastapi-demo")])
         200), w).
Proof.
  destruct request as [m [p q] h b]; simpl; intros -> ->. reflexivity.
Qed.

Lemma router_ready request w :
  method request = "GET" → path (url request) = "/ready" →
  router request w =
  (Ok (JSONResponse
         (JDict [("status", JStr "ready"); ("service", JStr "fastapi-demo")])
         200), w).
Proof.
  destruct request as [m [p q] h b]; simpl; intros -> ->. reflexivity.
Qed.

Lemma router_items request w :
  method request = "GET" → path (url request) = "/api/items" →
  router request w =
  (Ok (JSONResponse
         (JDict [("items", JList [
            JDict [("id", JInt 1); ("name", JStr "Item 1");
                   ("description", JStr "First item")];
            JDict [("id", JInt 2); ("name", JStr "Item 2");
                   ("description", JStr "Second item")];
            JDict [("id", JInt 3); ("name", JStr "Item 3");
                   ("description", JStr "Third item")]])])
         200),
   {| environ := environ w; clock := clock w; reads := reads w;
      records := records w ++
        [{| levelname := INFO; message := "Items endpoint accessed" |}] |}).
Proof.
  destruct request as [m [p q] h b]; simpl; intros -> ->. reflexivity.
Qed.

Lemma router_status request w :
  method request = "GET" → path (url request) = "/api/status" →
  router request w =
  (Ok (JSONResponse
         (JDict [("app", JStr "fastapi-demo");
                 ("version", JStr "1.0.0");
                 ("status", JStr "running");
                 ("environment",
                  JStr (default "development" (environ w !! "ENVIRONMENT")))])
         200), w).
Proof.
  destruct request as [m [p q] h b]; simpl; intros -> ->.
  run_handlers. destruct (environ w !! "ENVIRONMENT"); reflexivity.
Qed.

(** The router always answers: no handler raises.  It leaves the
    environment and the clock alone and only adds to the log. *)
Lemma router_total request w :
  ∃ response lines,
    router request w =
    (Ok response,
     {| environ := environ w; clock := clock w; reads := reads w;
        records := records w ++ lines |}).
Proof.
  unfold router.
  destruct (find_route (path (url request)) routes) as [handler|] eqn:Hf.
  - destruct (String.eqb (method request) "GET").
    + simpl in Hf.
      repeat match type of Hf with
             | (if ?c then _ else _) = _ => destruct c
             end; inversion Hf; subst handler; run_handlers;
        try destruct (environ w !! "ENVIRONMENT");
        eexists _, _; try reflexivity;
        destruct w; simpl; rewrite ?app_nil_r; reflexivity.
    + exists (JSONResponse (JDict [("detail", JStr "Method Not Allowed")]) 405), [].
      destruct w; simpl. rewrite app_nil_r. reflexivity.
  - exists (JSONResponse (JDict [("detail", JStr "Not Found")]) 404), [].
    destruct w; simpl. rewrite app_nil_r. reflexivity.
Qed.

(** On a GET request to a registered route the router answers 200 with
    a mapping that depends on the environment only, and adds the same
    lines to the log whatever the state. *)
Lemma router_registered request :
  registered request →
  ∃ (content : gmap string string → json) (lines : list LogRecord),
    ∀ w, router request w =
         (Ok (JSONResponse (content (environ w)) 200),
          {| environ := environ w; clock := clock w; reads := reads w;
             records := records w ++ lines |}).
Proof.
  intros [Hm Hp]. simpl in Hp.
  destruct Hp as [Hp|[Hp|[Hp|[Hp|[Hp|[]]]]]]; symmetry in Hp.
  - exists (λ env, JDict [("message", JStr "Welcome to FastAPI GitOps Demo");
                          ("version", JStr "1.0.0");
                          ("environment",
                           JStr (default "development" (env !! "ENVIRONMENT")))]),
      [{| levelname := INFO; message := "Root endpoint accessed" |}].
    intros w. apply router_root; assumption.
  - exists (λ _, JDict [("status", JStr "healthy");
                        ("service", JStr "fastapi-demo")]), [].
    intros w. rewrite (router_health _ _ Hm Hp).
    destruct w; simpl. rewrite app_nil_r. reflexivity.
  - exists (λ _, JDict [("status", JStr "ready");
                        ("service", JStr "fastapi-demo")]), [].
    intros w. rewrite (router_ready _ _ Hm Hp).
    destruct w; simpl. rewrite app_nil_r. reflexivity.
  - eexists (λ _, _), _. intros w. apply router_items; assumption.
  - exists (λ env, JDict [("app", JStr "fastapi-demo");
                          ("version", JStr "1.0.0");
                          ("status", JStr "running");
                          ("environment",
                           JStr (default "development" (env !! "ENVIRONMENT")))]),
      [].
    intros w. rewrite (router_status _ _ Hm Hp).
    destruct w; simpl. rewrite app_nil_r. reflexivity.
Qed.

(** ** The routes *)

(** C1. Every GET request to [/api/items] is answered with exactly the
    three items 1, 2, 3, named "Item 1", "Item 2", "Item 3" and described
    as "First item", "Second item", "Third item", in that order, whatever
    else the request carries and whatever the state of the process. *)
Theorem get_items_returns_three_fixed_items (request : Request) (w : World) :
  method request = "GET" → path (url request) = "/api/items" →
  ∃ response w',
    app request w = (Ok response, w')
    ∧ body response =
      JDict [("items", JList [
        JDict [("id", JInt 1); ("name", JStr "Item 1");
               ("description", JStr "First item")];
        JDict [("id", JInt 2); ("name", JStr "Item 2");
               ("description", JStr "Second item")];
        JDict [("id", JInt 3); ("name", JStr "Item 3");
               ("description", JStr "Third item")]])].
Proof.
  intros Hm Hp. unfold app.
  rewrite middleware_run, (router_items _ _ Hm Hp).
  eexists _, _. split; reflexivity.
Qed.

Lemma get_items_returns_three_fixed_items_witness :
  ∃ response w',
    app (GET "/api/items") world0 = (Ok response, w')
    ∧ body response =
      JDict [("items", JList [
        JDict [("id", JInt 1); ("name", JStr "Item 1");
               ("description", JStr "First item")];
        JDict [("id", JInt 2); ("name", JStr "Item 2");
               ("description", JStr "Second item")];
        JDict [("id", JInt 3); ("name", JStr "Item 3");
               ("description", JStr "Third item")]])].
Proof.
  apply (get_items_returns_three_fixed_items (GET "/api/items") world0);
    reflexivity.
Defined.

(** C2. Every GET request to [/] reports as [environment] the value of
    the ENVIRONMENT variable, and "development" when the variable is
    absent; so "staging" when it is set to "staging". *)
Theorem root_environment_default_and_value (request : Request) (w : World) :
  method request = "GET" → path (url request) = "/" →
  ∃ response w',
    app request w = (Ok response, w')
    ∧ field "environment" (body response) =
      Some (JStr (default "development" (environ w !! "ENVIRONMENT")))
    ∧ (environ w !! "ENVIRONMENT" = None →
       field "environment" (body response) = Some (JStr "development"))
    ∧ (environ w !! "ENVIRONMENT" = Some "staging" →
       field "environment" (body response) = Some (JStr "staging")).
Proof.
  intros Hm Hp. unfold app.
  rewrite middleware_run, (router_root _ _ Hm Hp).
  eexists _, _. split; [reflexivity|]. cbn [body JSONResponse field assoc].
  simpl. repeat split; intros ->; reflexivity.
Qed.

Lemma root_environment_default_and_value_witness :
  ∃ response w',
    app (GET "/") (setenv "ENVIRONMENT" "staging" world0) = (Ok response, w')
    ∧ field "environment" (body response) = Some (JStr "staging").
Proof.
  destruct (root_environment_default_and_value (GET "/")
              (setenv "ENVIRONMENT" "staging" world0) eq_refl eq_refl)
    as (response & w' & Happ & _ & _ & Hstaging).
  exists response, w'. split; [exact Happ|].
  apply Hstaging. reflexivity.
Defined.

(** C6. Every GET request to [/health] is answered with the constant
    mapping [{"status": "healthy", "service": "fastapi-demo"}], whatever
    the process environment holds. *)
Theorem health_constant_body (request : Request) (w : World) :
  method request = "GET" → path (url request) = "/health" →
  ∃ response w',
    app request w = (Ok response, w')
    ∧ body response =
      JDict [("status", JStr "healthy"); ("service", JStr "fastapi-demo")].
Proof.
  intros Hm Hp. unfold app.
  rewrite middleware_run, (router_health _ _ Hm Hp).
  eexists _, _. split; reflexivity.
Qed.

Lemma health_constant_body_witness :
  ∃ response w',
    app (GET "/health") (setenv "ENVIRONMENT" "staging" world0)
    = (Ok response, w')
    ∧ body response =
      JDict [("status", JStr "healthy"); ("service", JStr "fastapi-demo")].
Proof.
  apply (health_constant_body (GET "/health")
           (setenv "ENVIRONMENT" "staging" world0)); reflexivity.
Defined.

(** ** The logging middleware *)

(** C3. What the middleware hands back is what the rest of the stack
    produced once the start time was taken: the same response, with its
    status code, headers and body, or the same exception. *)
Theorem middleware_returns_downstream_response
    (request : Request) (call_next : Request → M Response) (w : World) :
  fst (logging_middleware request call_next w)
  = fst (call_next request (snd (time_time w))).
Proof.
  rewrite middleware_run.
  destruct (call_next request _) as [[response|e] w1]; reflexivity.
Qed.

(** C5, as the code has it. The duration is the difference of two
    readings of the wall clock.  When the second reading is not below the
    first, the duration the middleware logs for a GET request to a
    registered route is not below zero. *)
Theorem duration_nonneg_when_clock_not_set_back (request : Request) (w : World) :
  registered request →
  PyFloat.is_number (clock w (reads w)) = true →
  PyFloat.is_number (clock w (S (reads w))) = true →
  PyFloat.le (clock w (reads w)) (clock w (S (reads w))) = true →
  ∃ response w',
    app request w = (Ok response, w')
    ∧ last (records w') =
      Some {| levelname := INFO;
              message := method request +:+ " " +:+ path (url request)
                +:+ " - 200 - "
                +:+ PyStr.format_3f
                      (PyFloat.sub (clock w (S (reads w))) (clock w (reads w)))
                +:+ "s" |}
    ∧ PyFloat.le PyFloat.zero
        (PyFloat.sub (clock w (S (reads w))) (clock w (reads w))) = true.
Proof.
  intros Hreg H0 H1 Hle.
  destruct (router_registered request Hreg) as (content & lines & Hr).
  eexists _, _. split; [|split].
  - unfold app. rewrite middleware_run, Hr. reflexivity.
  - cbn [records]. rewrite last_snoc. reflexivity.
  - apply sub_nonneg; assumption.
Qed.

Lemma duration_nonneg_when_clock_not_set_back_witness :
  ∃ response w',
    app (GET "/ready") world0 = (Ok response, w')
    ∧ last (records w') =
      Some {| levelname := INFO; message := "GET /ready - 200 - 0.250s" |}
    ∧ PyFloat.le PyFloat.zero (PyFloat.sub t_250ms t_0) = true.
Proof.
  apply (duration_nonneg_when_clock_not_set_back (GET "/ready") world0).
  - split; [reflexivity | simpl; tauto].
  - reflexivity.
  - reflexivity.
  - reflexivity.
Defined.

(** C5, as the claim has it, fails: with a wall clock set back by a
    quarter of a second while [/health] is served, the logged duration
    is -0.250 s. *)
Lemma duration_negative_when_clock_set_back :
  registered (GET "/health")
  ∧ ∃ response w',
      app (GET "/health") world_set_back = (Ok response, w')
      ∧ last (records w') =
        Some {| levelname := INFO; message := "GET /health - 200 - -0.250s" |}
      ∧ PyFloat.le PyFloat.zero
          (PyFloat.sub (clock world_set_back 1) (clock world_set_back 0))
        = false.
Proof.
  split; [split; [reflexivity | simpl; tauto]|].
  eexists _, _. split; [vm_compute; reflexivity|].
  split; vm_compute; reflexivity.
Qed.

(** ** The environment setting *)

(** On the two routes that report it, the [environment] field is the
    value the variable has when the request is served. *)
Lemma app_reports_environment (request : Request) (w : World) :
  reports_environment request →
  ∃ response w',
    app request w = (Ok response, w')
    ∧ environ w' = environ w
    ∧ field "environment" (body response) =
      Some (JStr (default "development" (environ w !! "ENVIRONMENT"))).
Proof.
  intros [Hm [Hp|Hp]]; unfold app; rewrite middleware_run.
  - rewrite (router_root _ _ Hm Hp). eexists _, _. repeat split.
  - rewrite (router_status _ _ Hm Hp). eexists _, _. repeat split.
Qed.

(** C7. The variable is read when a request is served, not once at
    startup: after a first request served under one setting, a request
    served once the variable has been changed reports the new value, and
    one served once it has been removed reports "development". *)
Theorem environment_read_on_each_request
    (request1 request2 : Request) (w : World) (value : string) :
  reports_environment request1 → reports_environment request2 →
  ∃ response1 w1,
    app request1 w = (Ok response1, w1)
    ∧ field "environment" (body response1) =
      Some (JStr (default "development" (environ w !! "ENVIRONMENT")))
    ∧ (∃ response2 w2,
         app request2 (setenv "ENVIRONMENT" value w1) = (Ok response2, w2)
         ∧ field "environment" (body response2) = Some (JStr value))
    ∧ (∃ response2 w2,
         app request2 (unsetenv "ENVIRONMENT" w1) = (Ok response2, w2)
         ∧ field "environment" (body response2) = Some (JStr "development")).
Proof.
  intros H1 H2.
  destruct (app_reports_environment request1 w H1) as (r1 & w1 & Ha1 & _ & Hf1).
  exists r1, w1. split; [exact Ha1|]. split; [exact Hf1|]. split.
  - destruct (app_reports_environment request2 (setenv "ENVIRONMENT" value w1) H2)
      as (r2 & w2 & Ha2 & _ & Hf2).
    exists r2, w2. split; [exact Ha2|].
    rewrite Hf2. unfold setenv; cbn [environ].
    rewrite lookup_insert_eq. reflexivity.
  - destruct (app_reports_environment request2 (unsetenv "ENVIRONMENT" w1) H2)
      as (r2 & w2 & Ha2 & _ & Hf2).
    exists r2, w2. split; [exact Ha2|].
    rewrite Hf2. unfold unsetenv; cbn [environ].
    rewrite lookup_delete_eq. reflexivity.
Qed.

Lemma environment_read_on_each_request_witness :
  ∃ response1 w1,
    app (GET "/") world0 = (Ok response1, w1)
    ∧ field "environment" (body response1) = Some (JStr "development")
    ∧ (∃ response2 w2,
         app (GET "/api/status") (setenv "ENVIRONMENT" "staging" w1)
         = (Ok response2, w2)
         ∧ field "environment" (body response2) = Some (JStr "staging"))
    ∧ (∃ response2 w2,
         app (GET "/api/status") (unsetenv "ENVIRONMENT" w1)
         = (Ok response2, w2)
         ∧ field "environment" (body response2) = Some (JStr "development")).
Proof.
  apply (environment_read_on_each_request
           (GET "/") (GET "/api/status") world0 "staging").
  - split; [reflexivity | left; reflexivity].
  - split; [reflexivity | right; reflexivity].
Defined.

(** C10. With the variable set to the empty string, [/] and
    [/api/status] report the empty string: the default is for an absent
    variable only. *)
Theorem empty_environment_is_not_defaulted (request : Request) (w : World) :
  reports_environment request →
  environ w !! "ENVIRONMENT" = Some "" →
  ∃ response w',
    app request w = (Ok response, w')
    ∧ field "environment" (body response) = Some (JStr "")
    ∧ field "environment" (body response) ≠ Some (JStr "development").
Proof.
  intros Hr He.
  destruct (app_reports_environment request w Hr) as (r & w' & Ha & _ & Hf).
  exists r, w'. split; [exact Ha|].
  rewrite Hf, He. split; [reflexivity | discriminate].
Qed.

Lemma empty_environment_is_not_defaulted_witness :
  ∃ response w',
    app (GET "/api/status") (setenv "ENVIRONMENT" "" world0) = (Ok response, w')
    ∧ field "environment" (body response) = Some (JStr "")
    ∧ field "environment" (body response) ≠ Some (JStr "development").
Proof.
  apply (empty_environment_is_not_defaulted (GET "/api/status")
           (setenv "ENVIRONMENT" "" world0)).
  - split; [reflexivity | right; reflexivity].
  - reflexivity.
Defined.

(** ** All five routes *)

(** C9. Every GET request to one of the five routes is answered (no
    handler raises) with status 200 and the mapping of its route; for
    [/api/status] that is the application name, version "1.0.0", status
    "running" and the environment setting. *)
Theorem routes_answer_200_with_shape (request : Request) (w : World) :
  registered request →
  ∃ response w',
    app request w = (Ok response, w')
    ∧ status_code response = 200
    ∧ let environment := default "development" (environ w !! "ENVIRONMENT") in
      (path (url request) = "/" →
       body response =
       JDict [("message", JStr "Welcome to FastAPI GitOps Demo");
              ("version", JStr "1.0.0");
              ("environment", JStr environment)])
      ∧ (path (url request) = "/health" →
         body response =
         JDict [("status", JStr "healthy"); ("service", JStr "fastapi-demo")])
      ∧ (path (url request) = "/ready" →
         body response =
         JDict [("status", JStr "ready"); ("service", JStr "fastapi-demo")])
      ∧ (path (url request) = "/api/items" →
         body response =
         JDict [("items", JList [
           JDict [("id", JInt 1); ("name", JStr "Item 1");
                  ("description", JStr "First item")];
           JDict [("id", JInt 2); ("name", JStr "Item 2");
                  ("description", JStr "Second item")];
           JDict [("id", JInt 3); ("name", JStr "Item 3");
                  ("description", JStr "Third item")]])])
      ∧ (path (url request) = "/api/status" →
         body response =
         JDict [("app", JStr "fastapi-demo");
                ("version", JStr "1.0.0");
                ("status", JStr "running");
                ("environment", JStr environment)]).
Proof.
  intros [Hm Hp]. simpl in Hp. unfold app. rewrite middleware_run.
  destruct Hp as [Hp|[Hp|[Hp|[Hp|[Hp|[]]]]]]; symmetry in Hp;
    [ rewrite (router_root _ _ Hm Hp)
    | rewrite (router_health _ _ Hm Hp)
    | rewrite (router_ready _ _ Hm Hp)
    | rewrite (router_items _ _ Hm Hp)
    | rewrite (router_status _ _ Hm Hp) ];
    eexists _, _; (split; [reflexivity|]); (split; [reflexivity|]);
    cbv zeta; rewrite Hp; cbn [body JSONResponse];
    repeat split; intros H; first [reflexivity | discriminate H].
Qed.

Lemma routes_answer_200_with_shape_witness :
  ∃ response w',
    app (GET "/api/status") world0 = (Ok response, w')
    ∧ status_code response = 200
    ∧ body response =
      JDict [("app", JStr "fastapi-demo");
             ("version", JStr "1.0.0");
             ("status", JStr "running");
             ("environment", JStr "development")].
Proof.
  destruct (routes_answer_200_with_shape (GET "/api/status") world0)
    as (response & w' & Happ & Hcode & _ & _ & _ & _ & Hstatus).
  - split; [reflexivity | simpl; tauto].
  - exists response, w'. split; [exact Happ|]. split; [exact Hcode|].
    apply Hstatus. reflexivity.
Defined.

Section Rendering.

(** The framework's serialisation of a mapping into the body it sends,
    a byte string; all that matters of it is that it is a function of
    the mapping. *)
Context {bytes : Type}.
Variable render : json → bytes.

(** C8. Two GET requests to a registered route that are alike and are
    served under the same environment get the same bytes, whatever the
    log and the clock hold.  Serving one leaves the environment as it
    was, so the same request served again right after gets the same
    bytes once more. *)
Theorem identical_requests_identical_bodies
    (request : Request) (w1 w2 : World) :
  registered request →
  environ w1 = environ w2 →
  ∃ response1 w1' response2 w2' response3 w3',
    app request w1 = (Ok response1, w1')
    ∧ app request w2 = (Ok response2, w2')
    ∧ render (body response1) = render (body response2)
    ∧ environ w1' = environ w1
    ∧ app request w1' = (Ok response3, w3')
    ∧ render (body response3) = render (body response1).
Proof.
  intros Hreg Henv.
  destruct (router_registered request Hreg) as (content & lines & Hr).
  unfold app. rewrite !middleware_run, !Hr.
  eexists _, _, _, _, _, _. split; [reflexivity|]. split; [reflexivity|].
  cbn [body JSONResponse environ snd time_time]. rewrite Henv.
  split; [reflexivity|]. split; [reflexivity|].
  rewrite !middleware_run, !Hr. split; reflexivity.
Qed.

End Rendering.

Lemma identical_requests_identical_bodies_witness :
  ∃ response1 w1' response2 w2' response3 w3',
    app (GET "/") world0 = (Ok response1, w1')
    ∧ app (GET "/") world_set_back = (Ok response2, w2')
    ∧ body response1 = body response2
    ∧ environ w1' = environ world0
    ∧ app (GET "/") w1' = (Ok response3, w3')
    ∧ body response3 = body response1.
Proof.
  apply (identical_requests_identical_bodies (λ j : json, j)
           (GET "/") world0 world_set_back).
  - split; [reflexivity | simpl; tauto].
  - reflexivity.
Defined.

(** ** Further properties of the handlers and the middleware *)

(** X1. What a GET request to a registered route writes to the log:
    [/] writes "Root endpoint accessed" and [/api/items] writes "Items
    endpoint accessed", each before the timing line; [/health], [/ready]
    and [/api/status] write the timing line only.  Earlier records are
    kept as they are. *)
Theorem access_lines_per_route (request : Request) (w : World) :
  registered request →
  let timing :=
    {| levelname := INFO;
       message := method request +:+ " " +:+ path (url request)
         +:+ " - 200 - "
         +:+ PyStr.format_3f
               (PyFloat.sub (clock w (S (reads w))) (clock w (reads w)))
         +:+ "s" |} in
  ∃ response w',
    app request w = (Ok response, w')
    ∧ (path (url request) = "/" →
       records w' = records w ++
         [{| levelname := INFO; message := "Root endpoint accessed" |}; timing])
    ∧ (path (url request) = "/api/items" →
       records w' = records w ++
         [{| levelname := INFO; message := "Items endpoint accessed" |}; timing])
    ∧ (path (url request) = "/health" ∨ path (url request) = "/ready"
       ∨ path (url request) = "/api/status" →
       records w' = records w ++ [timing]).
Proof.
  intros [Hm Hp] timing. subst timing. simpl in Hp. unfold app.
  rewrite middleware_run.
  destruct Hp as [Hp|[Hp|[Hp|[Hp|[Hp|[]]]]]]; symmetry in Hp;
    [ rewrite (router_root _ _ Hm Hp)
    | rewrite (router_health _ _ Hm Hp)
    | rewrite (router_ready _ _ Hm Hp)
    | rewrite (router_items _ _ Hm Hp)
    | rewrite (router_status _ _ Hm Hp) ];
    eexists _, _; (split; [reflexivity|]);
    rewrite Hp; cbn [records reads clock snd time_time status_code JSONResponse];
    rewrite <- ?app_assoc;
    repeat split; intros H;
    first [ reflexivity
          | discriminate H
          | destruct H as [H|[H|H]]; discriminate H ].
Qed.

Lemma access_lines_per_route_witness :
  ∃ response w',
    app (GET "/api/items") world0 = (Ok response, w')
    ∧ records w' =
      [{| levelname := INFO; message := "Items endpoint accessed" |};
       {| levelname := INFO; message := "GET /api/items - 200 - 0.250s" |}].
Proof.
  destruct (access_lines_per_route (GET "/api/items") world0)
    as (response & w' & Happ & _ & Hitems & _).
  - split; [reflexivity | simpl; tauto].
  - exists response, w'. split; [exact Happ|].
    rewrite (Hitems eq_refl). reflexivity.
Defined.

(** X3. When the stack below the middleware raises, the middleware lets
    the exception through and writes no timing line: the state is the
    one the failing stack left, with only the start time read. *)
Theorem middleware_propagates_exception
    (request : Request) (call_next : Request → M Response)
    (w w1 : World) (e : exn) :
  call_next request (snd (time_time w)) = (Raised e, w1) →
  logging_middleware request call_next w = (Raised e, w1).
Proof.
  intros H. rewrite middleware_run, H. reflexivity.
Qed.

Lemma middleware_propagates_exception_witness :
  logging_middleware (GET "/") (failing_downstream "RuntimeError") world0
  = (Raised "RuntimeError",
     {| environ := ∅; clock := clock world0; reads := 1; records := [] |}).
Proof.
  apply (middleware_propagates_exception (GET "/")
           (failing_downstream "RuntimeError") world0).
  reflexivity.
Defined.

(** X4. The body of a request is never used: two requests that differ
    in their bodies only get the same response, the same log lines and
    leave the same state. *)
Theorem request_body_ignored (request1 request2 : Request) (w : World) :
  method request1 = method request2 →
  url request1 = url request2 →
  request_headers request1 = request_headers request2 →
  app request1 w = app request2 w.
Proof.
  destruct request1 as [m1 u1 h1 b1], request2 as [m2 u2 h2 b2].
  cbn [method url request_headers]. intros -> -> ->.
  unfold app. rewrite !middleware_run. reflexivity.
Qed.

Lemma request_body_ignored_witness :
  app {| method := "GET"; url := {| path := "/"; query := "" |};
         request_headers := []; request_body := "{}" |} world0
  = app (GET "/") world0.
Proof.
  apply request_body_ignored; reflexivity.
Defined.

(** X5. ENVIRONMENT is the only variable the handlers look at: under two
    environments that agree on it, and differ at will elsewhere, a GET
    request to a registered route gets the same response. *)
Theorem only_ENVIRONMENT_is_read (request : Request) (w1 w2 : World) :
  registered request →
  environ w1 !! "ENVIRONMENT" = environ w2 !! "ENVIRONMENT" →
  ∃ response w1' w2',
    app request w1 = (Ok response, w1')
    ∧ app request w2 = (Ok response, w2').
Proof.
  intros [Hm Hp] Henv. simpl in Hp. unfold app. rewrite !middleware_run.
  destruct Hp as [Hp|[Hp|[Hp|[Hp|[Hp|[]]]]]]; symmetry in Hp;
    [ rewrite !(router_root _ _ Hm Hp)
    | rewrite !(router_health _ _ Hm Hp)
    | rewrite !(router_ready _ _ Hm Hp)
    | rewrite !(router_items _ _ Hm Hp)
    | rewrite !(router_status _ _ Hm Hp) ];
    cbn [environ snd time_time]; rewrite ?Henv;
    eexists _, _, _; split; reflexivity.
Qed.

Lemma only_ENVIRONMENT_is_read_witness :
  ∃ response w1' w2',
    app (GET "/api/status") world0 = (Ok response, w1')
    ∧ app (GET "/api/status") (setenv "HOME" "/root" world0)
      = (Ok response, w2').
Proof.
  apply (only_ENVIRONMENT_is_read (GET "/api/status") world0
           (setenv "HOME" "/root" world0)).
  - split; [reflexivity | simpl; tauto].
  - reflexivity.
Defined.

(** ** Further properties of the measured duration *)

Section DurationFacts.
Import PyFloat.

Lemma sub_diag (x : spec_float) :
  is_finite x = true → sub x x = S754_zero false.
Proof.
  destruct x as [s| | |s m e]; cbn [is_finite]; try discriminate; intros _.
  - destruct s; reflexivity.
  - unfold sub, SFsub. rewrite Z.sub_diag. reflexivity.
Qed.

Lemma binary_round_aux_nonpos m e l :
  0 <= m → le (binary_round_aux prec emax true m e l) zero = true.
Proof.
  intros H. unfold binary_round_aux.
  pose proof (shr_fexp_nonneg m e l H) as H1.
  destruct (shr_fexp prec emax m e l) as [mrs' e'] eqn:E1. simpl in H1.
  pose proof (shr_fexp_nonneg _ e' loc_Exact
                (round_nearest_even_nonneg _ (loc_of_shr_record mrs') H1)) as H2.
  destruct (shr_fexp prec emax (round_nearest_even _ _) e' loc_Exact) as [mrs'' e''].
  simpl in H2.
  destruct (shr_m mrs'') as [|p|p]; [reflexivity| |lia].
  destruct (e'' <=? emax - prec); reflexivity.
Qed.

Lemma binary_normalize_nonpos m e :
  m <= 0 → le (binary_normalize prec emax m e false) zero = true.
Proof.
  intros H. destruct m as [|p|p]; [reflexivity|lia|].
  simpl. unfold binary_round.
  destruct (shl_align p e _) as [mz ez].
  apply binary_round_aux_nonpos. lia.
Qed.

(** Subtracting a number from one that is not larger gives a float that
    is not above zero. *)
Lemma sub_nonpos (x y : spec_float) :
  is_number x = true → is_number y = true → le x y = true →
  le (sub x y) zero = true.
Proof.
  destruct x as [sx| | |sx mx ex], y as [sy| | |sy my ey];
    cbn [is_number]; try discriminate.
  - intros _ _ _. destruct sx, sy; reflexivity.
  - intros _ _. destruct sy; [discriminate | reflexivity].
  - intros _ _. destruct sx; [reflexivity | discriminate].
  - intros Hx Hy Hle. unfold sub, SFsub. apply binary_normalize_nonpos.
    unfold le, SFleb, SFcompare in Hle.
    destruct sx, sy; cbn [cond_Zopp].
    + (* both negative *)
      enough (Zpos (fst (shl_align my ey (Z.min ex ey)))
              <= Zpos (fst (shl_align mx ex (Z.min ex ey)))) by lia.
      apply aligned_le; [assumption..|].
      rewrite Pos.compare_cont_antisym in Hle. simpl CompOpp in Hle.
      rewrite Z.compare_antisym.
      destruct (ex ?= ey); simpl in *; try discriminate; try congruence.
      destruct (Pos.compare_cont Eq my mx); congruence.
    + (* x negative, y positive *)
      pose proof (Pos2Z.pos_is_pos (fst (shl_align mx ex (Z.min ex ey)))).
      pose proof (Pos2Z.pos_is_pos (fst (shl_align my ey (Z.min ex ey)))).
      lia.
    + (* x positive, y negative: excluded by x <= y *)
      discriminate Hle.
    + (* both positive *)
      enough (Zpos (fst (shl_align mx ex (Z.min ex ey)))
              <= Zpos (fst (shl_align my ey (Z.min ex ey)))) by lia.
      rewrite Z.min_comm. apply aligned_le; [assumption..|].
      destruct (ex ?= ey); try discriminate; try congruence.
      destruct (Pos.compare_cont Eq mx my); congruence.
Qed.

(** The nearest integer to [n / d]: off by half at most, and even on a
    tie. *)
Lemma round_half_even_nearest n d :
  0 < d →
  2 * Z.abs (n - round_half_even n d * d) <= d
  ∧ (2 * (n mod d) = d → Z.even (round_half_even n d) = true).
Proof.
  intros Hd. unfold round_half_even.
  pose proof (Z.div_mod n d ltac:(lia)) as Hdm.
  pose proof (Z.mod_pos_bound n d Hd) as Hr.
  destruct (Z.compare_spec (2 * (n mod d)) d) as [Heq|Hlt|Hgt].
  - destruct (Z.even (n / d)) eqn:Hev.
    + split; [nia | intros _; exact Hev].
    + split; [nia|]. intros _.
      rewrite Z.even_add, Hev. reflexivity.
  - split; [nia | lia].
  - split; [nia | lia].
Qed.

End DurationFacts.

(** X6. When the clock gives the same reading before and after (the
    request is served within one tick of the clock), the duration logged
    for a GET request to a registered route is 0.000. *)
Theorem same_reading_logs_zero (request : Request) (w : World) :
  registered request →
  PyFloat.is_finite (clock w (reads w)) = true →
  clock w (S (reads w)) = clock w (reads w) →
  ∃ response w',
    app request w = (Ok response, w')
    ∧ last (records w') =
      Some {| levelname := INFO;
              message := method request +:+ " " +:+ path (url request)
                +:+ " - 200 - 0.000s" |}.
Proof.
  intros Hreg Hfin Hsame.
  destruct (router_registered request Hreg) as (content & lines & Hr).
  unfold app. rewrite middleware_run, Hr.
  eexists _, _. split; [reflexivity|].
  cbn [records reads clock snd time_time status_code JSONResponse].
  rewrite last_snoc, Hsame, sub_diag by exact Hfin. reflexivity.
Qed.

Lemma same_reading_logs_zero_witness :
  ∃ response w',
    app (GET "/health") world_frozen = (Ok response, w')
    ∧ last (records w') =
      Some {| levelname := INFO; message := "GET /health - 200 - 0.000s" |}.
Proof.
  apply (same_reading_logs_zero (GET "/health") world_frozen).
  - split; [reflexivity | simpl; tauto].
  - reflexivity.
  - reflexivity.
Defined.

(** X7. The duration is written rounded to the nearest thousandth of a
    second, ties going to the even thousandth: for a float of value
    [m * 2^e] the logged figure is [n] thousandths where [n] is exact
    when [e >= 0] and otherwise differs from [1000 * m * 2^e] by half a
    thousandth at most. *)
Theorem logged_duration_rounding (s : bool) (m : positive) (e : Z) :
  ∃ n,
    PyStr.format_3f (S754_finite s m e) = PyStr.sign s +:+ PyStr.fixed3 n
    ∧ 0 <= n
    ∧ (0 <= e → n = 1000 * Zpos m * 2 ^ e)
    ∧ (e < 0 →
       2 * Z.abs (1000 * Zpos m - n * 2 ^ (- e)) <= 2 ^ (- e)
       ∧ (2 * Z.abs (1000 * Zpos m - n * 2 ^ (- e)) = 2 ^ (- e) →
          Z.even n = true)).
Proof.
  exists (PyFloat.thousandths m e).
  split; [reflexivity|]. split; [apply thousandths_nonneg|].
  unfold PyFloat.thousandths. destruct e as [|p|p].
  - split; [reflexivity | lia].
  - split; [reflexivity | lia].
  - split; [lia|]. intros _.
    change (- Z.neg p) with (Z.pos p).
    assert (0 < 2 ^ Z.pos p) as Hd by (apply Z.pow_pos_nonneg; lia).
    destruct (round_half_even_nearest (1000 * Z.pos m) (2 ^ Z.pos p) Hd)
      as [Hnear Heven].
    split; [exact Hnear|].
    intros Htie. apply Heven.
    unfold PyFloat.round_half_even in Htie |- *.
    pose proof (Z.div_mod (1000 * Z.pos m) (2 ^ Z.pos p) ltac:(lia)) as Hdm.
    pose proof (Z.mod_pos_bound (1000 * Z.pos m) (2 ^ Z.pos p) Hd) as Hr.
    destruct (Z.compare_spec (2 * ((1000 * Z.pos m) mod 2 ^ Z.pos p))
                (2 ^ Z.pos p)) as [Heq|Hlt|Hgt];
      [exact Heq | nia | nia].
Qed.

(** X8. When the second reading of the clock is not above the first
    (the clock stood still or was set back), the duration logged for a
    GET request to a registered route is not above zero. *)
Theorem duration_nonpos_when_clock_not_advanced (request : Request) (w : World) :
  registered request →
  PyFloat.is_number (clock w (reads w)) = true →
  PyFloat.is_number (clock w (S (reads w))) = true →
  PyFloat.le (clock w (S (reads w))) (clock w (reads w)) = true →
  ∃ response w',
    app request w = (Ok response, w')
    ∧ last (records w') =
      Some {| levelname := INFO;
              message := method request +:+ " " +:+ path (url request)
                +:+ " - 200 - "
                +:+ PyStr.format_3f
                      (PyFloat.sub (clock w (S (reads w))) (clock w (reads w)))
                +:+ "s" |}
    ∧ PyFloat.le
        (PyFloat.sub (clock w (S (reads w))) (clock w (reads w)))
        PyFloat.zero = true.
Proof.
  intros Hreg H0 H1 Hle.
  destruct (router_registered request Hreg) as (content & lines & Hr).
  eexists _, _. split; [|split].
  - unfold app. rewrite middleware_run, Hr. reflexivity.
  - cbn [records]. rewrite last_snoc. reflexivity.
  - apply sub_nonpos; assumption.
Qed.

Lemma duration_nonpos_when_clock_not_advanced_witness :
  ∃ response w',
    app (GET "/ready") world_set_back = (Ok response, w')
    ∧ last (records w') =
      Some {| levelname := INFO; message := "GET /ready - 200 - -0.250s" |}
    ∧ PyFloat.le (PyFloat.sub t_0 t_250ms) PyFloat.zero = true.
Proof.
  apply (duration_nonpos_when_clock_not_advanced (GET "/ready") world_set_back).
  - split; [reflexivity | simpl; tauto].
  - reflexivity.
  - reflexivity.
  - reflexivity.
Defined.

(** The lines a registered route writes before the timing line: one at
    most, the same whatever the state. *)
Lemma access_lines_of request :
  registered request →
  ∃ (content : gmap string string → json) (lines : list LogRecord),
    (∀ w, router request w =
          (Ok (JSONResponse (content (environ w)) 200),
           {| environ := environ w; clock := clock w; reads := reads w;
              records := records w ++ lines |}))
    ∧ (length lines <= 1)%nat.
Proof.
  intros [Hm Hp]. simpl in Hp.
  destruct Hp as [Hp|[Hp|[Hp|[Hp|[Hp|[]]]]]]; symmetry in Hp.
  - exists (λ env, JDict [("message", JStr "Welcome to FastAPI GitOps Demo");
                          ("version", JStr "1.0.0");
                          ("environment",
                           JStr (default "development" (env !! "ENVIRONMENT")))]),
      [{| levelname := INFO; message := "Root endpoint accessed" |}].
    split; [|simpl; lia].
    intros w. apply router_root; assumption.
  - exists (λ _, JDict [("status", JStr "healthy");
                        ("service", JStr "fastapi-demo")]), [].
    split; [|simpl; lia].
    intros w. rewrite (router_health _ _ Hm Hp).
    destruct w; simpl. rewrite app_nil_r. reflexivity.
  - exists (λ _, JDict [("status", JStr "ready");
                        ("service", JStr "fastapi-demo")]), [].
    split; [|simpl; lia].
    intros w. rewrite (router_ready _ _ Hm Hp).
    destruct w; simpl. rewrite app_nil_r. reflexivity.
  - eexists (λ _, _), [_]. split; [|simpl; lia].
    intros w. apply router_items; assumption.
  - exists (λ env, JDict [("app", JStr "fastapi-demo");
                          ("version", JStr "1.0.0");
                          ("status", JStr "running");
                          ("environment",
                           JStr (default "development" (env !! "ENVIRONMENT")))]),
      [].
    split; [|simpl; lia].
    intros w. rewrite (router_status _ _ Hm Hp).
    destruct w; simpl. rewrite app_nil_r. reflexivity.
Qed.

(** X9. Two GET requests to registered routes served one after the
    other: the log keeps what it held, then holds the lines of the first
    request, ending with its timing line, then those of the second,
    ending with its timing line; before its timing line a request
    writes one line at most. *)
Theorem two_requests_in_a_row (request1 request2 : Request) (w : World) :
  registered request1 → registered request2 →
  ∃ response1 w1 response2 w2 access1 figure1 access2 figure2,
    app request1 w = (Ok response1, w1)
    ∧ app request2 w1 = (Ok response2, w2)
    ∧ records w2 =
      records w
      ++ access1
      ++ [{| levelname := INFO;
             message := method request1 +:+ " " +:+ path (url request1)
               +:+ " - 200 - " +:+ figure1 +:+ "s" |}]
      ++ access2
      ++ [{| levelname := INFO;
             message := method request2 +:+ " " +:+ path (url request2)
               +:+ " - 200 - " +:+ figure2 +:+ "s" |}]
    ∧ (length access1 <= 1)%nat
    ∧ (length access2 <= 1)%nat.
Proof.
  intros Hreg1 Hreg2.
  destruct (access_lines_of request1 Hreg1) as (content1 & l1 & Hr1 & Hl1).
  destruct (access_lines_of request2 Hreg2) as (content2 & l2 & Hr2 & Hl2).
  unfold app. rewrite middleware_run, Hr1.
  eexists _, _. rewrite middleware_run, Hr2.
  eexists _, _, l1, _, l2, _.
  split; [reflexivity|]. split; [reflexivity|].
  cbn [records reads clock snd time_time status_code JSONResponse].
  rewrite <- !app_assoc. repeat split; assumption.
Qed.

Lemma two_requests_in_a_row_witness :
  ∃ response1 w1 response2 w2 access1 figure1 access2 figure2,
    app (GET "/") world0 = (Ok response1, w1)
    ∧ app (GET "/health") w1 = (Ok response2, w2)
    ∧ records w2 =
      records world0
      ++ access1
      ++ [{| levelname := INFO;
             message := "GET / - 200 - " +:+ figure1 +:+ "s" |}]
      ++ access2
      ++ [{| levelname := INFO;
             message := "GET /health - 200 - " +:+ figure2 +:+ "s" |}]
    ∧ (length access1 <= 1)%nat
    ∧ (length access2 <= 1)%nat.
Proof.
  apply (two_requests_in_a_row (GET "/") (GET "/health") world0).
  - split; [reflexivity | simpl; tauto].
  - split; [reflexivity | simpl; tauto].
Defined.

(** ** The timing line *)

Section TimingLine.
Import PyStr.

(** [str] gives the decimal writing of an integer. *)
Lemma str_writes_int (n : Z) : writes_int n (str n).
Proof.
  unfold writes_int, str. apply NilZero.isi.
  - destruct n as [|p|p]; simpl; try discriminate.
    intros [= H]. exact (DecimalPos.Unsigned.to_uint_nonnil p H).
  - destruct n as [|p|p]; simpl; try discriminate.
    intros [= H]. exact (DecimalPos.Unsigned.to_uint_nonnil p H).
Qed.

(** Three digit characters read as the number they spell. *)
Lemma three_digits_table :
  forallb (λ a, forallb (λ b, forallb (λ c,
    match NilEmpty.uint_of_string
            (String (digit (Z.of_nat a))
               (String (digit (Z.of_nat b))
                  (String (digit (Z.of_nat c)) EmptyString))) with
    | Some u => Z.of_uint u =? 100 * Z.of_nat a + 10 * Z.of_nat b + Z.of_nat c
    | None => false
    end) (seq 0 10)) (seq 0 10)) (seq 0 10) = true.
Proof. vm_compute. reflexivity. Qed.

Lemma three_digits_value (a b c : Z) :
  0 <= a < 10 → 0 <= b < 10 → 0 <= c < 10 →
  ∃ u, NilEmpty.uint_of_string
         (String (digit a) (String (digit b) (String (digit c) EmptyString)))
       = Some u
       ∧ Z.of_uint u = 100 * a + 10 * b + c.
Proof.
  intros Ha Hb Hc.
  pose proof three_digits_table as Ht.
  rewrite forallb_forall in Ht.
  specialize (Ht (Z.to_nat a) ltac:(apply in_seq; lia)).
  rewrite forallb_forall in Ht.
  specialize (Ht (Z.to_nat b) ltac:(apply in_seq; lia)).
  rewrite forallb_forall in Ht.
  specialize (Ht (Z.to_nat c) ltac:(apply in_seq; lia)).
  rewrite !Z2Nat.id in Ht by lia.
  destruct (NilEmpty.uint_of_string _) as [u|]; [|discriminate].
  exists u. split; [reflexivity|]. apply Z.eqb_eq, Ht.
Qed.

Lemma thousandths_digits (n : Z) :
  0 <= n →
  n mod 1000 = 100 * (n / 100 mod 10) + 10 * (n / 10 mod 10) + n mod 10.
Proof. intros Hn. Z.div_mod_to_equations. lia. Qed.

Lemma thousandths_nearest (m : positive) (e : Z) :
  nearest_thousandth m e (PyFloat.thousandths m e).
Proof.
  split; [apply thousandths_nonneg|].
  unfold PyFloat.thousandths. destruct e as [|p|p].
  - split; [reflexivity | lia].
  - split; [reflexivity | lia].
  - split; [lia|]. intros _.
    change (- Z.neg p) with (Z.pos p).
    assert (0 < 2 ^ Z.pos p) as Hd by (apply Z.pow_pos_nonneg; lia).
    destruct (round_half_even_nearest (1000 * Z.pos m) (2 ^ Z.pos p) Hd)
      as [Hnear Heven].
    split; [exact Hnear|].
    intros Htie. apply Heven.
    unfold PyFloat.round_half_even in Htie |- *.
    pose proof (Z.div_mod (1000 * Z.pos m) (2 ^ Z.pos p) ltac:(lia)) as Hdm.
    pose proof (Z.mod_pos_bound (1000 * Z.pos m) (2 ^ Z.pos p) Hd) as Hr.
    destruct (Z.compare_spec (2 * ((1000 * Z.pos m) mod 2 ^ Z.pos p))
                (2 ^ Z.pos p)) as [Heq|Hlt|Hgt];
      [exact Heq | nia | nia].
Qed.

(** The text [format_3f] gives is the float in fixed-point notation with
    three decimals. *)
Lemma format_3f_writes (x : spec_float) : writes_3f x (format_3f x).
Proof.
  destruct x as [s|s| |s m e]; cbn [writes_3f format_3f].
  - destruct s; reflexivity.
  - destruct s; reflexivity.
  - reflexivity.
  - pose proof (thousandths_nonneg m e) as Hn.
    set (n := PyFloat.thousandths m e) in *.
    destruct (three_digits_value (n / 100 mod 10) (n / 10 mod 10) (n mod 10))
      as (u & Hu & Hv); try (apply Z.mod_pos_bound; lia).
    exists n, (str (n / 1000)),
      (String (digit (n / 100 mod 10))
         (String (digit (n / 10 mod 10))
            (String (digit (n mod 10)) EmptyString))), u.
    split; [destruct s; reflexivity|].
    split; [apply thousandths_nearest|].
    split; [apply str_writes_int|].
    split; [reflexivity|].
    split; [exact Hu|].
    rewrite Hv. symmetry. apply thousandths_digits, Hn.
Qed.

End TimingLine.

(** C4, as the code has it. Whatever stack runs below the middleware:
    when it produces a response, the middleware adds exactly one record
    to the log, after every record written while the response was
    produced, namely the line [<method> <path> - <status> - <duration>s]
    where the status is the decimal writing of the response's status
    code and the duration is the binary64 difference of the clock
    reading taken after the response and the one taken before, written
    in seconds rounded to the nearest thousandth with three decimals;
    when the stack raises, the exception goes through and the log is
    left as the stack left it, without a timing line. *)
Theorem timing_line_after_response
    (request : Request) (call_next : Request → M Response) (w : World) :
  match call_next request (snd (time_time w)) with
  | (Ok response, w1) =>
      ∃ status_text figure,
        logging_middleware request call_next w =
        (Ok response,
         {| environ := environ w1; clock := clock w1; reads := S (reads w1);
            records := records w1 ++
              [{| levelname := INFO;
                  message := method request +:+ " " +:+ path (url request)
                    +:+ " - " +:+ status_text +:+ " - " +:+ figure
                    +:+ "s" |}] |})
        ∧ writes_int (status_code response) status_text
        ∧ writes_3f
            (SFsub 53 1024 (clock w1 (reads w1)) (clock w (reads w)))
            figure
  | (Raised e, w1) =>
      logging_middleware request call_next w = (Raised e, w1)
  end.
Proof.
  rewrite middleware_run.
  destruct (call_next request _) as [[response|e] w1]; [|reflexivity].
  eexists _, _. split; [reflexivity|].
  split; [apply str_writes_int | apply format_3f_writes].
Qed.

(** C4, as the claim has it, fails: a request whose handling raises
    below the middleware passes through the middleware and leaves no
    timing line in the log. *)
Lemma no_timing_line_when_downstream_raises :
  fst (logging_middleware (GET "/") (failing_downstream "RuntimeError") world0)
  = Raised "RuntimeError"
  ∧ records (snd (logging_middleware (GET "/")
                    (failing_downstream "RuntimeError") world0))
    = records world0.
Proof. split; reflexivity. Qed.

(** A request served in five seconds is logged with the figure 5.000. *)
Example five_seconds :
  logging_middleware (GET "/health") router
    {| environ := ∅;
       clock := λ n, match n with
                     | O => t_0
                     | _ => S754_finite false 7130316820971520 (-22)
                     end;
       reads := 0; records := [] |}
  = (Ok (JSONResponse
           (JDict [("status", JStr "healthy"); ("service", JStr "fastapi-demo")])
           200),
     {| environ := ∅;
        clock := λ n, match n with
                      | O => t_0
                      | _ => S754_finite false 7130316820971520 (-22)
                      end;
        reads := 2;
        records := [{| levelname := INFO;
                       message := "GET /health - 200 - 5.000s" |}] |}).
Proof. vm_compute. reflexivity. Qed.
